(** * Type relation of the Arm(R) Ethos(TM)-U unary elementwise operator

    A shallow embedding of [EthosuUnaryElementwiseRel] and of the attribute
    node [EthosuUnaryElementwiseAttrs] from
    [src/relay/op/contrib/ethosu/unary_elementwise.cc], together with the
    properties of the type relation: what it assigns, when it reports, when
    it defers, what it leaves alone and which of its inputs it reads. *)

From Stdlib Require Import ZArith String Floats.PrimFloat.
From stdpp Require Import base decidable option list strings pretty.

Local Open Scope Z_scope.
Local Open Scope string_scope.

(** ** Data model *)

(** [DataType] of the runtime: a type code, a bit width and a lane count.
    Two data types are equal when the three agree. *)
Module DataType.

Inductive TypeCode : Set := kInt | kUInt | kFloat | kHandle | kBFloat.

Record t : Set := mk { code : TypeCode; bits : Z; lanes : Z }.

(** [DataType::Int(bits)], [DataType::UInt(bits)], [DataType::Float(bits)]:
    scalar types, one lane. *)
Definition Int (b : Z) : t := mk kInt b 1.
Definition UInt (b : Z) : t := mk kUInt b 1.
Definition Float (b : Z) : t := mk kFloat b 1.

#[global] Instance TypeCode_eq_dec : EqDecision TypeCode.
Proof. solve_decision. Defined.

#[global] Instance eq_dec : EqDecision t.
Proof. solve_decision. Defined.

End DataType.

(** [IndexExpr]: a dimension of a shape, constant or symbolic. *)
Inductive IndexExpr : Set :=
| IntImm (value : Z)
| Var (name_hint : string)
| Any.

(** The payload of a tensor type: [TensorTypeNode::shape] and
    [TensorTypeNode::dtype]. *)
Record TensorTypeNode : Set := mkTensorTypeNode {
  shape : list IndexExpr;
  dtype : DataType.t
}.

(** Relay types as the relation meets them: a resolved tensor type, a type
    that is still to be inferred, or some other type (here a tuple). *)
#[warnings="-register-all"]
Inductive RelayType : Set :=
| TensorTypeRef (node : TensorTypeNode)
| IncompleteType (id : nat)
| TupleType (fields : list RelayType).

(** [TensorType(shape, dtype)]: the constructor call of the source. *)
Definition TensorType (s : list IndexExpr) (d : DataType.t) : RelayType :=
  TensorTypeRef (mkTensorTypeNode s d).

(** [ty.as<TensorTypeNode>()]: the node when [ty] is a tensor type, a null
    pointer otherwise. *)
Definition as_TensorTypeNode (ty : RelayType) : option TensorTypeNode :=
  match ty with
  | TensorTypeRef node => Some node
  | _ => None
  end.

(** Attributes used by the NPU unary elementwise operator, field by field
    as in the struct; [double] is a binary64 float, [int] an integer. *)
Record EthosuUnaryElementwiseAttrs : Set := mkAttrs {
  operator_type : string;
  ifm_scale : float;
  ifm_zero_point : Z;
  ofm_scale : float;
  ofm_zero_point : Z;
  ofm_channels : IndexExpr;
  activation : string;
  clip_min : Z;
  clip_max : Z;
  rounding_mode : string;
  ifm_layout : string;
  ofm_layout : string
}.

(** [Attrs]: a reference to an attribute node of some type, possibly the
    node of another operator, possibly null. *)
Inductive Attrs : Set :=
| AttrsNull
| AttrsUnaryElementwise (node : EthosuUnaryElementwiseAttrs)
| AttrsOther (type_key : string).

(** [attrs.as<EthosuUnaryElementwiseAttrs>()] *)
Definition as_EthosuUnaryElementwiseAttrs (attrs : Attrs)
  : option EthosuUnaryElementwiseAttrs :=
  match attrs with
  | AttrsUnaryElementwise node => Some node
  | _ => None
  end.

(** ** The reporter and the effects of the relation *)

(** [Span]: the source location of the call node under inference. *)
Record Span : Set := mkSpan {
  source_name : string;
  line : Z;
  column : Z;
  end_line : Z;
  end_column : Z
}.

Inductive DiagnosticLevel : Set := kBug | kError | kWarning | kNote | kHelp.

(** A diagnostic: level, location and the text streamed into it. *)
Record Diagnostic : Set := mkDiagnostic {
  diag_level : DiagnosticLevel;
  diag_span : Span;
  diag_message : string
}.

(** [Diagnostic::Error(span)] opens an error diagnostic with an empty
    message; [d << s] streams text into it. *)
Definition Diagnostic_Error (sp : Span) : Diagnostic := mkDiagnostic kError sp "".

Definition stream (d : Diagnostic) (s : string) : Diagnostic :=
  mkDiagnostic (diag_level d) (diag_span d) (diag_message d ++ s).

Declare Scope diag_scope.
Delimit Scope diag_scope with diag.
Infix "<<" := stream (at level 50, left associativity) : diag_scope.

(** What the relation can reach through its [TypeReporter]: the span of the
    call, the diagnostics handed to the diagnostic context, and the
    assignments [Assign(dst, src)] handed to the type solver. *)
Record TypeReporter : Set := mkReporter {
  reporter_span : Span;
  diagnostics : list Diagnostic;
  assignments : list (RelayType * RelayType)
}.

(** The reporter after it received further diagnostics and assignments. *)
Definition extend (r : TypeReporter) (ds : list Diagnostic)
    (asg : list (RelayType * RelayType)) : TypeReporter :=
  mkReporter (reporter_span r) (diagnostics r ++ ds) (assignments r ++ asg).

Definition with_diagnostic (r : TypeReporter) (d : Diagnostic) : TypeReporter :=
  extend r [d] [].

Definition with_assignment (r : TypeReporter) (dst src : RelayType) : TypeReporter :=
  extend r [] [(dst, src)].

(** Failures of the internal checks, which are not diagnostics. *)
Inductive InternalError : Set :=
| ICHECK_EQ_failed (lhs rhs : Z)
| CHECK_failed (msg : string)
| IndexOutOfBounds (index size : Z).

(** A call either returns a value or is cut short by an internal error. *)
Inductive Outcome (A : Type) : Type :=
| Returned (a : A)
| Aborted (e : InternalError).
Arguments Returned {A} a.
Arguments Aborted {A} e.

(** Computations over the reporter that may abort. *)
Definition M (A : Type) : Type := TypeReporter -> Outcome A * TypeReporter.

Definition ret {A} (a : A) : M A := fun r => (Returned a, r).

Definition bind {A B} (m : M A) (k : A -> M B) : M B :=
  fun r =>
    match m r with
    | (Returned a, r') => k a r'
    | (Aborted e, r') => (Aborted e, r')
    end.

Definition abort {A} (e : InternalError) : M A := fun r => (Aborted e, r).

Declare Scope rel_scope.
Delimit Scope rel_scope with rel.
Notation "x <- m ;; k" := (bind m (fun x => k))
  (at level 100, m at next level, right associativity) : rel_scope.
Notation "m ;; k" := (bind m (fun _ => k))
  (at level 100, right associativity) : rel_scope.

(** [reporter->GetSpan()] *)
Definition GetSpan : M Span := fun r => (Returned (reporter_span r), r).

(** Modelled from the spec: [DiagnosticContext::EmitFatal] belongs to the
    diagnostic subsystem, which is not part of this file.  The diagnostic
    channel hands the structured message with its span to the reporter, and
    the call comes back to the relation, which then returns failure. *)
Definition EmitFatal (d : Diagnostic) : M unit :=
  fun r => (Returned tt, with_diagnostic r d).

(** Modelled from the spec: [TypeReporter::Assign(dst, src)] belongs to the
    inference engine.  The derived descriptor [src] is handed over for the
    slot [dst]; the caller's unification step owns it from there. *)
Definition Assign (dst src : RelayType) : M unit :=
  fun r => (Returned tt, with_assignment r dst src).

(** Modelled from the spec: [ICHECK_EQ(x, y)] is an internal-consistency
    check; a mismatch is fatal and is not reported as a diagnostic. *)
Definition ICHECK_EQ (x y : Z) : M unit :=
  if decide (x = y) then ret tt else abort (ICHECK_EQ_failed x y).

(** Modelled from the spec: [CHECK(p != nullptr) << msg], fatal when the
    pointer is null; otherwise the pointer can be dereferenced. *)
Definition CHECK_notnull {A} (p : option A) (msg : string) : M A :=
  match p with
  | Some node => ret node
  | None => abort (CHECK_failed msg)
  end.

(** [types[i]] on an [Array<Type>]: the element, or an out-of-range failure. *)
Definition Array_at (types : list RelayType) (i : nat) : M RelayType :=
  match types !! i with
  | Some ty => ret ty
  | None => abort (IndexOutOfBounds (Z.of_nat i) (Z.of_nat (length types)))
  end.

(** ** The type relation *)

Section Rel.

(** [EthosuInferElementwiseOutputShape(ifm_shape, ifm_layout, ofm_layout,
    ofm_channels)] is declared in [common.h]; the relation only calls it. *)
Variable EthosuInferElementwiseOutputShape :
  list IndexExpr -> string -> string -> IndexExpr -> list IndexExpr.

(** The text the runtime streams for a [DataType] ([os << dtype]). *)
Variable DLDataType2String : DataType.t -> string.

Definition EthosuUnaryElementwiseRel
    (types : list RelayType) (num_inputs : Z) (attrs : Attrs) : M bool :=
  (let ifm_index := 0%nat in
   let result_index := 2%nat in
   ICHECK_EQ (Z.of_nat (length types)) (Z.of_nat result_index + 1) ;;
   ifm_ty <- Array_at types ifm_index ;;
   match as_TensorTypeNode ifm_ty with
   | None => ret false
   | Some ifm =>
     param <- CHECK_notnull (as_EthosuUnaryElementwiseAttrs attrs)
                "EthosuUnaryElementwiseAttrs cannot be nullptr." ;;
     let operator_type := operator_type param in
     if bool_decide (operator_type <> "ABS") then
       sp <- GetSpan ;;
       EmitFatal
         (Diagnostic_Error sp
          << "Invalid operator: expected ethosu_unary_elementwise 'ABS' for operator_type but was"
          << operator_type)%diag ;;
       ret false
     else
       let ifm_dtype := dtype ifm in
       if bool_decide (ifm_dtype <> DataType.UInt 8)
          && bool_decide (ifm_dtype <> DataType.Int 8) then
         sp <- GetSpan ;;
         EmitFatal
           (Diagnostic_Error sp
            << "Invalid operator: expected ethosu_unary_elementwise input data type "
            << "of type(uint8) or type(int8) but was "
            << DLDataType2String ifm_dtype)%diag ;;
         ret false
       else
         (* Assign ofm type *)
         let ofm_shape :=
           EthosuInferElementwiseOutputShape
             (shape ifm) (ifm_layout param) (ofm_layout param) (ofm_channels param) in
         out_ty <- Array_at types result_index ;;
         Assign out_ty (TensorType ofm_shape ifm_dtype) ;;
         ret true
   end)%rel.

End Rel.

(** ** Instances of the collaborators, for running the relation *)

(** Modelled from the spec: the Shape Transform collaborator
    ([EthosuInferElementwiseOutputShape], defined next to [common.h] and not
    part of this file).  It converts a channel-blocked layout back to
    channel-last, or vice versa, and substitutes the declared output channel
    count for the channel dimension; as the operator's description has it,
    NHWC is (N, H, W, C) and NHCWB16 is (N, H, C // 16, W, 16).  Shapes of
    another rank and a symbolic channel count in a blocked output are not
    described there: the dimensions are then kept and the channel count is
    appended. *)
Definition ShapeTransform (ifm_shape : list IndexExpr) (ifm_layout ofm_layout : string)
    (ofm_channels : IndexExpr) : list IndexExpr :=
  let nhw :=
    if bool_decide (ifm_layout = "NHCWB16") then
      match ifm_shape with
      | [n; h; _; w; _] => [n; h; w]
      | _ => ifm_shape
      end
    else take 3 ifm_shape in
  match nhw, ofm_layout, ofm_channels with
  | [n; h; w], "NHCWB16", IntImm c => [n; h; IntImm (c / 16); w; IntImm 16]
  | _, _, _ => nhw ++ [ofm_channels]
  end.

(** Modelled from the spec: the name under which a diagnostic mentions an
    element data type, such as float32 or uint8 (with the lane count
    appended for vectors). *)
Definition DataTypeName (d : DataType.t) : string :=
  let base :=
    match DataType.code d with
    | DataType.kInt => "int"
    | DataType.kUInt => "uint"
    | DataType.kFloat => "float"
    | DataType.kHandle => "handle"
    | DataType.kBFloat => "bfloat"
    end in
  base ++ pretty (DataType.bits d)
       ++ (if bool_decide (DataType.lanes d = 1) then "" else "x" ++ pretty (DataType.lanes d)).

(** The attribute node with other clip bounds, every other field kept. *)
Definition with_clip (a : EthosuUnaryElementwiseAttrs) (lo hi : Z)
  : EthosuUnaryElementwiseAttrs :=
  mkAttrs (operator_type a) (ifm_scale a) (ifm_zero_point a) (ofm_scale a)
          (ofm_zero_point a) (ofm_channels a) (activation a) lo hi
          (rounding_mode a) (ifm_layout a) (ofm_layout a).

Definition example_span : Span := mkSpan "main.relay" 3 5 3 40.

Definition example_reporter : TypeReporter := mkReporter example_span [] [].

Definition example_attrs : EthosuUnaryElementwiseAttrs :=
  mkAttrs "ABS" 0.5%float 0 0.25%float 0 (IntImm 16) "NONE" 0 0 "TFL" "NHWC" "NHWC".

Definition nhwc_1_4_4_16 : list IndexExpr := [IntImm 1; IntImm 4; IntImm 4; IntImm 16].

(** ** One call of the relation, seen from the caller *)

(** The objects a call can reach: the type slots, the argument count and the
    attribute node, which the relation receives by value or by [const]
    reference, and the reporter. *)
Record RelCall : Set := mkRelCall {
  call_types : list RelayType;
  call_num_inputs : Z;
  call_attrs : Attrs;
  call_reporter : TypeReporter
}.

Section Call.

Variable EthosuInferElementwiseOutputShape :
  list IndexExpr -> string -> string -> IndexExpr -> list IndexExpr.
Variable DLDataType2String : DataType.t -> string.

(** The objects after the call, with what the call returned. *)
Definition run_call (c : RelCall) : Outcome bool * RelCall :=
  let res :=
    EthosuUnaryElementwiseRel EthosuInferElementwiseOutputShape DLDataType2String
      (call_types c) (call_num_inputs c) (call_attrs c) (call_reporter c) in
  (res.1, mkRelCall (call_types c) (call_num_inputs c) (call_attrs c) res.2).

End Call.

Definition nhcwb16_1_4_1_4_16 : list IndexExpr :=
  [IntImm 1; IntImm 4; IntImm 1; IntImm 4; IntImm 16].

Definition square_attrs : EthosuUnaryElementwiseAttrs :=
  mkAttrs "SQUARE" 0.5%float 0 0.25%float 0 (IntImm 16) "NONE" 0 0 "TFL" "NHWC" "NHWC".

Definition float32_node : TensorTypeNode := mkTensorTypeNode nhwc_1_4_4_16 (DataType.Float 32).

(** Clipping with [clip_min] above [clip_max]. *)
Definition clip_attrs : EthosuUnaryElementwiseAttrs :=
  mkAttrs "ABS" 0.5%float 0 0.25%float 0 (IntImm 16) "CLIP" 0 0 "TFL" "NHWC" "NHWC".

(** Non-positive scales, a look-up-table activation, another rounding mode. *)
Definition lut_attrs : EthosuUnaryElementwiseAttrs :=
  mkAttrs "ABS" (-1.5)%float 3 0%float (-128) (IntImm 16) "LUT" 5 (-5) "NATURAL" "NHWC" "NHWC".

Definition uint8_call : RelCall :=
  mkRelCall [TensorType nhwc_1_4_4_16 (DataType.UInt 8); IncompleteType 0; IncompleteType 1]
            2 (AttrsUnaryElementwise example_attrs) example_reporter.

(** ** Building the call and registering the operator *)

(** Relay expressions as far as the constructor of the operator needs them:
    variables, constants, and calls [Call(op, args, attrs, type_args)] of an
    operator given by its registered name. *)
#[warnings="-register-all"]
Inductive Expr : Set :=
| RelayVar (name_hint : string)
| Constant (data : Z)
| Call (op : string) (args : list Expr) (attrs : Attrs) (type_args : list RelayType).

(** [MakeEthosuUnaryElementwise]: a fresh attribute node is filled field by
    field from the arguments and attached to a call of
    [Op::Get("contrib.ethosu.unary_elementwise")] on [{ifm, lut}], without
    type arguments. *)
Definition MakeEthosuUnaryElementwise (ifm lut : Expr) (operator_type : string)
    (ifm_scale : float) (ifm_zero_point : Z) (ofm_scale : float) (ofm_zero_point : Z)
    (ofm_channels : IndexExpr) (activation : string) (clip_min clip_max : Z)
    (rounding_mode ifm_layout ofm_layout : string) : Expr :=
  let attrs :=
    {| operator_type := operator_type;
       ifm_scale := ifm_scale;
       ifm_zero_point := ifm_zero_point;
       ofm_scale := ofm_scale;
       ofm_zero_point := ofm_zero_point;
       ofm_channels := ofm_channels;
       activation := activation;
       clip_min := clip_min;
       clip_max := clip_max;
       rounding_mode := rounding_mode;
       ifm_layout := ifm_layout;
       ofm_layout := ofm_layout |} in
  let op := "contrib.ethosu.unary_elementwise" in
  Call op [ifm; lut] (AttrsUnaryElementwise attrs) [].

(** Modelled from the spec: the entry of the operator registry (section 4.4),
    whose builder is not part of this file.  It exposes the identifier of the
    operator, the type of its attributes, its input arity, the documentation
    of each argument (name, type, description), the support level and the
    bound type relation; the free-text description is left out. *)
Record OpRegEntry : Set := mkOpRegEntry {
  reg_name : string;
  reg_attrs_type : string;
  reg_num_inputs : Z;
  reg_arguments : list (string * string * string);
  reg_support_level : Z;
  reg_type_rel : string
}.

(** [RELAY_REGISTER_OP("contrib.ethosu.unary_elementwise")] with what its
    chain of settings declares: [set_attrs_type], [set_num_inputs], the two
    [add_argument], [set_support_level] and [add_type_rel]. *)
Definition ethosu_unary_elementwise_op : OpRegEntry :=
  {| reg_name := "contrib.ethosu.unary_elementwise";
     reg_attrs_type := "relay.attrs.EthosuUnaryElementwiseAttrs";
     reg_num_inputs := 2;
     reg_arguments :=
       [("ifm", "Tensor", "The Input Feature Map tensor (IFM).");
        ("lut", "Tensor", "The look-up table values to use if activation = 'LUT'")];
     reg_support_level := 11;
     reg_type_rel := "EthosuUnaryElementwise" |}.

(** ** Properties of the type relation *)

Lemma length_three_inv {A} (l : list A) :
  length l = 3%nat -> exists a b c, l = [a; b; c].
Proof.
  destruct l as [|a [|b [|c [|d l]]]]; simpl; intros H; try discriminate.
  by exists a, b, c.
Qed.

Lemma extend_nil r : extend r [] [] = r.
Proof. destruct r; unfold extend; simpl. by rewrite !app_nil_r. Qed.

Section Unfolding.

Variable InferShape : list IndexExpr -> string -> string -> IndexExpr -> list IndexExpr.
Variable DType2String : DataType.t -> string.

(** The diagnostics the relation builds. *)
Abbreviation operator_diagnostic sp op :=
  (mkDiagnostic kError sp
     ("Invalid operator: expected ethosu_unary_elementwise 'ABS' for operator_type but was"
      ++ op)).
Abbreviation dtype_diagnostic sp dt :=
  (mkDiagnostic kError sp
     ("Invalid operator: expected ethosu_unary_elementwise input data type of type(uint8) or type(int8) but was "
      ++ DType2String dt)).

(** With another number of type slots than three the arity check stops
    the call before anything else is looked at. *)
Lemma rel_arity_mismatch types n attrs r :
  length types <> 3%nat ->
  EthosuUnaryElementwiseRel InferShape DType2String types n attrs r = (Aborted (ICHECK_EQ_failed (Z.of_nat (length types)) 3), r).
Proof.
  intros H. unfold EthosuUnaryElementwiseRel, bind, ICHECK_EQ.
  case_decide as Hd; [exfalso; apply H; simpl in Hd; lia | reflexivity].
Qed.

(** With three type slots the call runs through the checks in order. *)
Lemma rel_three t0 t1 t2 n attrs r :
  EthosuUnaryElementwiseRel InferShape DType2String [t0; t1; t2] n attrs r =
  match as_TensorTypeNode t0 with
  | None => (Returned false, r)
  | Some ifm =>
    match as_EthosuUnaryElementwiseAttrs attrs with
    | None => (Aborted (CHECK_failed "EthosuUnaryElementwiseAttrs cannot be nullptr."), r)
    | Some param =>
      if bool_decide (operator_type param <> "ABS") then
        (Returned false,
         with_diagnostic r (operator_diagnostic (reporter_span r) (operator_type param)))
      else if bool_decide (dtype ifm <> DataType.UInt 8)
              && bool_decide (dtype ifm <> DataType.Int 8) then
        (Returned false,
         with_diagnostic r (dtype_diagnostic (reporter_span r) (dtype ifm)))
      else
        (Returned true,
         with_assignment r t2
           (TensorType (InferShape (shape ifm) (ifm_layout param) (ofm_layout param)
                                   (ofm_channels param))
                       (dtype ifm)))
    end
  end.
Proof.
  unfold EthosuUnaryElementwiseRel, bind, ICHECK_EQ, Array_at, CHECK_notnull. simpl.
  destruct (as_TensorTypeNode t0) as [ifm|]; [|reflexivity].
  destruct (as_EthosuUnaryElementwiseAttrs attrs) as [param|]; [|reflexivity].
  simpl. case_bool_decide; [reflexivity|].
  destruct (bool_decide (dtype ifm <> DataType.UInt 8)
            && bool_decide (dtype ifm <> DataType.Int 8)); reflexivity.
Qed.

End Unfolding.

Section Properties.

Variable InferShape : list IndexExpr -> string -> string -> IndexExpr -> list IndexExpr.
Variable DType2String : DataType.t -> string.

(** C1.  A call with three type slots whose first slot is a tensor type of
    element type int8 or uint8, with attributes whose [operator_type] is
    "ABS", returns [true] and assigns to the output slot the tensor type
    with the input's element type and with the shape that
    [EthosuInferElementwiseOutputShape] gives for the input shape, the two
    layouts and [ofm_channels]; no diagnostic is emitted. *)
Theorem rel_abs_assigns_output shape dt lut out n a r :
  dt = DataType.Int 8 \/ dt = DataType.UInt 8 ->
  operator_type a = "ABS" ->
  EthosuUnaryElementwiseRel InferShape DType2String [TensorType shape dt; lut; out] n (AttrsUnaryElementwise a) r =
  (Returned true,
   with_assignment r out
     (TensorType (InferShape shape (ifm_layout a) (ofm_layout a) (ofm_channels a)) dt)).
Proof.
  intros Hdt Hop. rewrite rel_three. simpl.
  rewrite bool_decide_eq_false_2 by (intros Hne; apply Hne, Hop).
  destruct Hdt as [-> | ->]; reflexivity.
Qed.

(** C2.  With three type slots, a tensor type in the first and attributes
    whose [operator_type] is not "ABS", the relation emits one error
    diagnostic at the span of the call whose message ends in the offending
    [operator_type], assigns nothing and returns [false]; it does not abort,
    so whatever the pass runs next ([k], say the relation of another node)
    is run, on the reporter that now holds the diagnostic. *)
Theorem rel_invalid_operator_reported node lut out n a r :
  operator_type a <> "ABS" ->
  let d := mkDiagnostic kError (reporter_span r)
             ("Invalid operator: expected ethosu_unary_elementwise 'ABS' for operator_type but was"
              ++ operator_type a) in
  EthosuUnaryElementwiseRel InferShape DType2String [TensorTypeRef node; lut; out] n (AttrsUnaryElementwise a) r
    = (Returned false, with_diagnostic r d)
  /\ assignments (with_diagnostic r d) = assignments r
  /\ diagnostics (with_diagnostic r d) = (diagnostics r ++ [d])%list
  /\ forall (B : Type) (k : bool -> M B),
       bind (EthosuUnaryElementwiseRel InferShape DType2String [TensorTypeRef node; lut; out] n (AttrsUnaryElementwise a)) k r
       = k false (with_diagnostic r d).
Proof.
  intros Hop d.
  assert (Hrun : EthosuUnaryElementwiseRel InferShape DType2String [TensorTypeRef node; lut; out] n (AttrsUnaryElementwise a) r
                 = (Returned false, with_diagnostic r d)).
  { rewrite rel_three. simpl. by rewrite bool_decide_eq_true_2. }
  split; [exact Hrun|]. split; [simpl; apply app_nil_r|]. split; [reflexivity|].
  intros B k. unfold bind. by rewrite Hrun.
Qed.

(** C3.  With three type slots and [operator_type] "ABS", a tensor type in
    the first slot whose element type is neither uint8 nor int8 makes the
    relation return [false] after one error diagnostic whose message ends
    in the text of that data type; nothing is assigned. *)
Theorem rel_invalid_dtype_reported node lut out n a r :
  operator_type a = "ABS" ->
  dtype node <> DataType.UInt 8 ->
  dtype node <> DataType.Int 8 ->
  let d := mkDiagnostic kError (reporter_span r)
             ("Invalid operator: expected ethosu_unary_elementwise input data type of type(uint8) or type(int8) but was "
              ++ DType2String (dtype node)) in
  EthosuUnaryElementwiseRel InferShape DType2String [TensorTypeRef node; lut; out] n (AttrsUnaryElementwise a) r
    = (Returned false, with_diagnostic r d)
  /\ assignments (with_diagnostic r d) = assignments r
  /\ diagnostics (with_diagnostic r d) = (diagnostics r ++ [d])%list.
Proof.
  intros Hop Hu Hi d. split; [|split; [simpl; apply app_nil_r | reflexivity]].
  rewrite rel_three. simpl.
  rewrite bool_decide_eq_false_2 by (intros Hne; apply Hne, Hop).
  by rewrite !bool_decide_eq_true_2.
Qed.

(** C4.  With three type slots of which the first is not a tensor type
    (an incomplete type, a tuple), the relation returns [false] and leaves
    the reporter as it was: no diagnostic, no assignment, no abort.  This
    holds for every [attrs], also a null reference or the attributes of
    another operator. *)
Theorem rel_unresolved_input_defers ifm_ty lut out n attrs r :
  as_TensorTypeNode ifm_ty = None ->
  EthosuUnaryElementwiseRel InferShape DType2String [ifm_ty; lut; out] n attrs r = (Returned false, r).
Proof. intros Hty. rewrite rel_three. by rewrite Hty. Qed.

(** C5.  The call aborts on the arity check exactly when the number of type
    slots is not three.  The abort is an internal error and not a
    diagnostic: the reporter is untouched and nothing sequenced after the
    call is run.  With three slots neither the arity check nor an index
    into [types] can fail. *)
Theorem rel_arity_check types n attrs r :
  (length types <> 3%nat ->
     EthosuUnaryElementwiseRel InferShape DType2String types n attrs r
       = (Aborted (ICHECK_EQ_failed (Z.of_nat (length types)) 3), r)
     /\ forall (B : Type) (k : bool -> M B),
          bind (EthosuUnaryElementwiseRel InferShape DType2String types n attrs) k r
          = (Aborted (ICHECK_EQ_failed (Z.of_nat (length types)) 3), r))
  /\ (length types = 3%nat ->
        forall x y,
          (EthosuUnaryElementwiseRel InferShape DType2String types n attrs r).1 <> Aborted (ICHECK_EQ_failed x y)
          /\ (EthosuUnaryElementwiseRel InferShape DType2String types n attrs r).1 <> Aborted (IndexOutOfBounds x y)).
Proof.
  split.
  - intros H. pose proof (rel_arity_mismatch InferShape DType2String types n attrs r H) as Hrun.
    split; [exact Hrun|]. intros B k. unfold bind. by rewrite Hrun.
  - intros H x y. destruct (length_three_inv _ H) as (t0 & t1 & t2 & ->).
    rewrite rel_three.
    destruct (as_TensorTypeNode t0); [|by split].
    destruct (as_EthosuUnaryElementwiseAttrs attrs); [|by split].
    case_bool_decide; [by split|].
    destruct (_ && _); by split.
Qed.

(** C6.  A call leaves the type slots, the attribute node and the span of
    the reporter as they were.  When it returns [true] its one effect is
    the assignment of the derived tensor type to the output slot
    [types[2]], and no diagnostic is added; in every other case (a failed
    check, a deferral, an abort) the assignments are as before. *)
Theorem rel_frame c o c' :
  run_call InferShape DType2String c = (o, c') ->
  call_types c' = call_types c
  /\ call_attrs c' = call_attrs c
  /\ call_num_inputs c' = call_num_inputs c
  /\ reporter_span (call_reporter c') = reporter_span (call_reporter c)
  /\ (o = Returned true ->
        diagnostics (call_reporter c') = diagnostics (call_reporter c)
        /\ exists ifm param out,
             call_types c !! 0%nat = Some (TensorTypeRef ifm)
             /\ call_attrs c = AttrsUnaryElementwise param
             /\ call_types c !! 2%nat = Some out
             /\ assignments (call_reporter c') =
                (assignments (call_reporter c)
                 ++ [(out, TensorType (InferShape (shape ifm) (ifm_layout param)
                                                  (ofm_layout param) (ofm_channels param))
                                      (dtype ifm))])%list)
  /\ (o <> Returned true ->
        assignments (call_reporter c') = assignments (call_reporter c)).
Proof.
  destruct c as [types n attrs r]. unfold run_call. simpl.
  intros Hrun. injection Hrun as <- <-. simpl.
  do 3 (split; [reflexivity|]).
  destruct (decide (length types = 3%nat)) as [Hlen|Hlen].
  - destruct (length_three_inv _ Hlen) as (t0 & t1 & t2 & ->).
    rewrite rel_three.
    destruct t0 as [ifm| |]; simpl; try (by repeat split).
    destruct attrs as [|param|]; simpl; try (by repeat split).
    case_bool_decide; simpl.
    { split; [reflexivity|]. split; [discriminate | intros _; apply app_nil_r]. }
    destruct (_ && _); simpl.
    { split; [reflexivity|]. split; [discriminate | intros _; apply app_nil_r]. }
    split; [reflexivity|]. split; [|congruence].
    intros _. split; [apply app_nil_r|]. by exists ifm, param, t2.
  - rewrite rel_arity_mismatch by done. simpl. by repeat split.
Qed.

(** C7.  The result of a call is determined by its arguments and the span:
    the outcome [o], the diagnostics [ds] and the assignments [asg] it adds
    do not depend on what the reporter already holds.  Running the relation
    again on the reporter it has left gives the same outcome and hands over
    the same output type once more, and so does a second run in which the
    output slot holds another type [out'], such as the type assigned by the
    first run. *)
Theorem rel_deterministic_idempotent types n attrs r :
  exists o ds asg,
    EthosuUnaryElementwiseRel InferShape DType2String types n attrs r = (o, extend r ds asg)
    /\ EthosuUnaryElementwiseRel InferShape DType2String types n attrs (extend r ds asg)
       = (o, extend (extend r ds asg) ds asg)
    /\ (forall r', reporter_span r' = reporter_span r ->
          EthosuUnaryElementwiseRel InferShape DType2String types n attrs r'
          = (o, extend r' ds asg))
    /\ (forall out', exists asg',
          EthosuUnaryElementwiseRel InferShape DType2String
            (<[2%nat := out']> types) n attrs (extend r ds asg)
          = (o, extend (extend r ds asg) ds asg')
          /\ map snd asg' = map snd asg).
Proof.
  assert (Hind : exists o ds asg,
             forall r', reporter_span r' = reporter_span r ->
               EthosuUnaryElementwiseRel InferShape DType2String types n attrs r'
               = (o, extend r' ds asg)
               /\ forall out', exists asg',
                    EthosuUnaryElementwiseRel InferShape DType2String
                      (<[2%nat := out']> types) n attrs r'
                    = (o, extend r' ds asg')
                    /\ map snd asg' = map snd asg).
  { destruct (decide (length types = 3%nat)) as [Hlen|Hlen].
    - destruct (length_three_inv _ Hlen) as (t0 & t1 & t2 & ->). simpl.
      destruct (as_TensorTypeNode t0) as [ifm|] eqn:Ht0.
      2:{ exists (Returned false), [], []. intros r' _.
          rewrite !rel_three, Ht0, extend_nil. split; [done|].
          intros out'. exists []. by rewrite rel_three, Ht0, extend_nil. }
      destruct (as_EthosuUnaryElementwiseAttrs attrs) as [param|] eqn:Hat.
      2:{ eexists _, [], []. intros r' _.
          rewrite !rel_three, Ht0, Hat, extend_nil. split; [done|].
          intros out'. exists []. by rewrite rel_three, Ht0, Hat, extend_nil. }
      destruct (bool_decide (operator_type param <> "ABS")) eqn:Hop.
      { eexists _, [_], []. intros r' Hsp.
        rewrite !rel_three, Ht0, Hat, Hop, Hsp. split; [reflexivity|].
        intros out'. exists []. by rewrite rel_three, Ht0, Hat, Hop, Hsp. }
      destruct (bool_decide (dtype ifm <> DataType.UInt 8)
                && bool_decide (dtype ifm <> DataType.Int 8)) eqn:Hdt.
      { eexists _, [_], []. intros r' Hsp.
        rewrite !rel_three, Ht0, Hat, Hop, Hdt, Hsp. split; [reflexivity|].
        intros out'. exists []. by rewrite rel_three, Ht0, Hat, Hop, Hdt, Hsp. }
      eexists _, [], [_]. intros r' _.
      rewrite !rel_three, Ht0, Hat, Hop, Hdt. split; [reflexivity|].
      intros out'. eexists [_]. rewrite rel_three, Ht0, Hat, Hop, Hdt.
      split; reflexivity.
    - eexists _, [], []. intros r' _.
      rewrite rel_arity_mismatch, extend_nil by done. split; [done|].
      intros out'. exists [].
      rewrite rel_arity_mismatch, extend_nil by (by rewrite length_insert).
      by rewrite length_insert. }
  destruct Hind as (o & ds & asg & Hind).
  exists o, ds, asg.
  split; [by apply Hind|]. split; [by apply Hind|].
  split; [intros r' Hsp; by apply Hind|].
  intros out'. by apply Hind.
Qed.

(** C8.  The checks run in the order arity, [operator_type], element
    type, and the output shape is computed last:
    - with a number of slots other than three the call aborts on the arity
      check, whatever the attributes and the slots hold;
    - with an [operator_type] other than "ABS" the one diagnostic is the one
      that names the [operator_type], whatever the element type is, so also
      for an element type that is itself unsupported;
    - with "ABS" and an unsupported element type the diagnostic names the
      data type;
    - a call that does not return [true] gives the same result with any
      other shape function [g] in place of
      [EthosuInferElementwiseOutputShape]: the shape function has no part
      in a call until every check has passed. *)
Theorem rel_validation_order :
  (forall types n attrs r,
      length types <> 3%nat ->
      EthosuUnaryElementwiseRel InferShape DType2String types n attrs r
      = (Aborted (ICHECK_EQ_failed (Z.of_nat (length types)) 3), r))
  /\ (forall node lut out n a r,
        operator_type a <> "ABS" ->
        EthosuUnaryElementwiseRel InferShape DType2String [TensorTypeRef node; lut; out] n (AttrsUnaryElementwise a) r
        = (Returned false,
           with_diagnostic r
             (mkDiagnostic kError (reporter_span r)
                ("Invalid operator: expected ethosu_unary_elementwise 'ABS' for operator_type but was"
                 ++ operator_type a))))
  /\ (forall node lut out n a r,
        operator_type a = "ABS" ->
        dtype node <> DataType.UInt 8 ->
        dtype node <> DataType.Int 8 ->
        EthosuUnaryElementwiseRel InferShape DType2String [TensorTypeRef node; lut; out] n (AttrsUnaryElementwise a) r
        = (Returned false,
           with_diagnostic r
             (mkDiagnostic kError (reporter_span r)
                ("Invalid operator: expected ethosu_unary_elementwise input data type of type(uint8) or type(int8) but was "
                 ++ DType2String (dtype node)))))
  /\ (forall g types n attrs r,
        (EthosuUnaryElementwiseRel InferShape DType2String types n attrs r).1 <> Returned true ->
        EthosuUnaryElementwiseRel g DType2String types n attrs r = EthosuUnaryElementwiseRel InferShape DType2String types n attrs r).
Proof.
  split; [|split; [|split]].
  - intros types n attrs r H. by apply rel_arity_mismatch.
  - intros node lut out n a r Hop. rewrite rel_three. simpl.
    by rewrite bool_decide_eq_true_2.
  - intros node lut out n a r Hop Hu Hi. rewrite rel_three. simpl.
    rewrite bool_decide_eq_false_2 by (intros Hne; apply Hne, Hop).
    by rewrite !bool_decide_eq_true_2.
  - intros g types n attrs r.
    destruct (decide (length types = 3%nat)) as [Hlen|Hlen].
    + destruct (length_three_inv _ Hlen) as (t0 & t1 & t2 & ->).
      rewrite !rel_three.
      destruct (as_TensorTypeNode t0); [|done].
      destruct (as_EthosuUnaryElementwiseAttrs attrs); [|done].
      case_bool_decide; [done|].
      destruct (_ && _); [done|]. simpl. congruence.
    + intros _. by rewrite !rel_arity_mismatch.
Qed.

(** C9.  The clip bounds are not read: attribute nodes that differ only in
    [clip_min] and [clip_max] give the same result on every call, whatever
    [activation] is and also when [clip_min] exceeds [clip_max]; a call that
    passes the checks on [operator_type] and element type returns [true]
    for every pair of bounds. *)
Theorem rel_ignores_clip_bounds a lo hi :
  (forall types n lo' hi' r,
      EthosuUnaryElementwiseRel InferShape DType2String types n (AttrsUnaryElementwise (with_clip a lo hi)) r
      = EthosuUnaryElementwiseRel InferShape DType2String types n (AttrsUnaryElementwise (with_clip a lo' hi')) r)
  /\ (forall shape dt lut out n r,
        dt = DataType.Int 8 \/ dt = DataType.UInt 8 ->
        operator_type a = "ABS" ->
        (EthosuUnaryElementwiseRel InferShape DType2String [TensorType shape dt; lut; out] n
             (AttrsUnaryElementwise (with_clip a lo hi)) r).1 = Returned true).
Proof.
  split.
  - intros types n lo' hi' r.
    destruct (decide (length types = 3%nat)) as [Hlen|Hlen].
    + destruct (length_three_inv _ Hlen) as (t0 & t1 & t2 & ->).
      by rewrite !rel_three.
    + by rewrite !rel_arity_mismatch.
  - intros shape dt lut out n r Hdt Hop. rewrite rel_three. simpl.
    rewrite bool_decide_eq_false_2 by (intros Hne; apply Hne, Hop).
    destruct Hdt as [-> | ->]; reflexivity.
Qed.

(** C10.  The relation reads the first type slot, [operator_type],
    [ifm_layout], [ofm_layout] and [ofm_channels] only.  A second call that
    has another type in the slot of the look-up table (any type [lut'], a
    tensor or not), another argument count and an attribute node [a'] that
    agrees with [a] on those four fields, but may differ in the scales, the
    zero points, the activation, the clip bounds and the rounding mode,
    gives the same result. *)
Theorem rel_reads_only types lut' n n' a a' r :
  operator_type a' = operator_type a ->
  ifm_layout a' = ifm_layout a ->
  ofm_layout a' = ofm_layout a ->
  ofm_channels a' = ofm_channels a ->
  EthosuUnaryElementwiseRel InferShape DType2String (<[1%nat := lut']> types) n' (AttrsUnaryElementwise a') r
  = EthosuUnaryElementwiseRel InferShape DType2String types n (AttrsUnaryElementwise a) r.
Proof.
  intros Hop Hil Hol Hch.
  destruct (decide (length types = 3%nat)) as [Hlen|Hlen].
  - destruct (length_three_inv _ Hlen) as (t0 & t1 & t2 & ->).
    simpl. rewrite !rel_three. simpl.
    by rewrite Hop, Hil, Hol, Hch.
  - rewrite !rel_arity_mismatch by (by rewrite ?length_insert).
    by rewrite length_insert.
Qed.

End Properties.

(** ** The relation at concrete calls *)

(** NHWC uint8 input of shape (1, 4, 4, 16), 16 output channels, NHWC output. *)
Example rel_nhwc_uint8 :
  EthosuUnaryElementwiseRel ShapeTransform DataTypeName [TensorType nhwc_1_4_4_16 (DataType.UInt 8); IncompleteType 0; IncompleteType 1] 2
       (AttrsUnaryElementwise example_attrs) example_reporter
  = (Returned true,
     mkReporter example_span []
       [(IncompleteType 1, TensorType nhwc_1_4_4_16 (DataType.UInt 8))]).
Proof. reflexivity. Qed.

(** NHCWB16 int8 input of shape (1, 4, 1, 4, 16), 16 output channels, NHWC output. *)
Example rel_nhcwb16_int8 :
  EthosuUnaryElementwiseRel ShapeTransform DataTypeName [TensorType nhcwb16_1_4_1_4_16 (DataType.Int 8); IncompleteType 0; IncompleteType 1] 2
       (AttrsUnaryElementwise
          (mkAttrs "ABS" 0.5%float 0 0.25%float 0 (IntImm 16) "NONE" 0 0 "TFL" "NHCWB16" "NHWC"))
       example_reporter
  = (Returned true,
     mkReporter example_span []
       [(IncompleteType 1, TensorType nhwc_1_4_4_16 (DataType.Int 8))]).
Proof. reflexivity. Qed.

Lemma rel_abs_assigns_output_witness :
  (DataType.UInt 8 = DataType.Int 8 \/ DataType.UInt 8 = DataType.UInt 8)
  /\ operator_type example_attrs = "ABS"
  /\ EthosuUnaryElementwiseRel ShapeTransform DataTypeName [TensorType nhwc_1_4_4_16 (DataType.UInt 8); IncompleteType 0; IncompleteType 1] 2
          (AttrsUnaryElementwise example_attrs) example_reporter
     = (Returned true,
        with_assignment example_reporter (IncompleteType 1)
          (TensorType nhwc_1_4_4_16 (DataType.UInt 8))).
Proof.
  split; [right; reflexivity|]. split; [reflexivity|].
  apply (rel_abs_assigns_output ShapeTransform DataTypeName nhwc_1_4_4_16 (DataType.UInt 8)
           (IncompleteType 0) (IncompleteType 1) 2 example_attrs example_reporter).
  - right; reflexivity.
  - reflexivity.
Defined.

Lemma rel_invalid_operator_reported_witness :
  operator_type square_attrs <> "ABS"
  /\ EthosuUnaryElementwiseRel ShapeTransform DataTypeName [TensorTypeRef float32_node; IncompleteType 0; IncompleteType 1] 2
          (AttrsUnaryElementwise square_attrs) example_reporter
     = (Returned false,
        mkReporter example_span
          [mkDiagnostic kError example_span
             "Invalid operator: expected ethosu_unary_elementwise 'ABS' for operator_type but wasSQUARE"]
          []).
Proof.
  assert (H : operator_type square_attrs <> "ABS") by (simpl; discriminate).
  split; [exact H|].
  apply (rel_invalid_operator_reported ShapeTransform DataTypeName float32_node
           (IncompleteType 0) (IncompleteType 1) 2 square_attrs example_reporter H).
Defined.

Lemma rel_invalid_dtype_reported_witness :
  operator_type example_attrs = "ABS"
  /\ dtype float32_node <> DataType.UInt 8
  /\ dtype float32_node <> DataType.Int 8
  /\ EthosuUnaryElementwiseRel ShapeTransform DataTypeName [TensorTypeRef float32_node; IncompleteType 0; IncompleteType 1] 2
          (AttrsUnaryElementwise example_attrs) example_reporter
     = (Returned false,
        mkReporter example_span
          [mkDiagnostic kError example_span
             "Invalid operator: expected ethosu_unary_elementwise input data type of type(uint8) or type(int8) but was float32"]
          []).
Proof.
  assert (Hu : dtype float32_node <> DataType.UInt 8) by (simpl; discriminate).
  assert (Hi : dtype float32_node <> DataType.Int 8) by (simpl; discriminate).
  split; [reflexivity|]. split; [exact Hu|]. split; [exact Hi|].
  apply (rel_invalid_dtype_reported ShapeTransform DataTypeName float32_node
           (IncompleteType 0) (IncompleteType 1) 2 example_attrs example_reporter
           eq_refl Hu Hi).
Defined.

Lemma rel_unresolved_input_defers_witness :
  as_TensorTypeNode (IncompleteType 7) = None
  /\ EthosuUnaryElementwiseRel ShapeTransform DataTypeName [IncompleteType 7; IncompleteType 0; IncompleteType 1] 2 AttrsNull example_reporter
     = (Returned false, example_reporter).
Proof.
  split; [reflexivity|].
  apply (rel_unresolved_input_defers ShapeTransform DataTypeName (IncompleteType 7)
           (IncompleteType 0) (IncompleteType 1) 2 AttrsNull example_reporter).
  reflexivity.
Defined.

Lemma rel_arity_check_witness :
  EthosuUnaryElementwiseRel ShapeTransform DataTypeName [TensorTypeRef float32_node; IncompleteType 1] 1
       (AttrsUnaryElementwise square_attrs) example_reporter
  = (Aborted (ICHECK_EQ_failed 2 3), example_reporter)
  /\ (EthosuUnaryElementwiseRel ShapeTransform DataTypeName [TensorTypeRef float32_node; IncompleteType 0; IncompleteType 1] 2
           (AttrsOther "relay.attrs.EthosuPoolingAttrs") example_reporter).1
     <> Aborted (ICHECK_EQ_failed 3 3).
Proof.
  split.
  - apply (rel_arity_check ShapeTransform DataTypeName
             [TensorTypeRef float32_node; IncompleteType 1] 1
             (AttrsUnaryElementwise square_attrs) example_reporter).
    simpl; lia.
  - apply (rel_arity_check ShapeTransform DataTypeName
             [TensorTypeRef float32_node; IncompleteType 0; IncompleteType 1] 2
             (AttrsOther "relay.attrs.EthosuPoolingAttrs") example_reporter).
    reflexivity.
Defined.

Lemma rel_frame_witness :
  let r' := with_assignment example_reporter (IncompleteType 1)
              (TensorType nhwc_1_4_4_16 (DataType.UInt 8)) in
  let c' := mkRelCall (call_types uint8_call) 2 (call_attrs uint8_call) r' in
  run_call ShapeTransform DataTypeName uint8_call = (Returned true, c')
  /\ call_types c' = call_types uint8_call
  /\ call_attrs c' = call_attrs uint8_call.
Proof.
  intros r' c'.
  assert (Hrun : run_call ShapeTransform DataTypeName uint8_call = (Returned true, c'))
    by reflexivity.
  split; [exact Hrun|].
  destruct (rel_frame ShapeTransform DataTypeName uint8_call (Returned true) c' Hrun)
    as (Hty & Hat & _).
  split; [exact Hty | exact Hat].
Defined.

Lemma rel_validation_order_witness :
  EthosuUnaryElementwiseRel ShapeTransform DataTypeName [TensorTypeRef float32_node] 0 (AttrsUnaryElementwise square_attrs) example_reporter
  = (Aborted (ICHECK_EQ_failed 1 3), example_reporter)
  /\ EthosuUnaryElementwiseRel ShapeTransform DataTypeName [TensorTypeRef float32_node; IncompleteType 0; IncompleteType 1] 2
          (AttrsUnaryElementwise square_attrs) example_reporter
     = (Returned false,
        with_diagnostic example_reporter
          (mkDiagnostic kError example_span
             "Invalid operator: expected ethosu_unary_elementwise 'ABS' for operator_type but wasSQUARE"))
  /\ EthosuUnaryElementwiseRel (fun _ _ _ _ => []) DataTypeName
        [TensorTypeRef float32_node; IncompleteType 0; IncompleteType 1] 2
        (AttrsUnaryElementwise example_attrs) example_reporter
     = EthosuUnaryElementwiseRel ShapeTransform DataTypeName [TensorTypeRef float32_node; IncompleteType 0; IncompleteType 1] 2
            (AttrsUnaryElementwise example_attrs) example_reporter.
Proof.
  destruct (rel_validation_order ShapeTransform DataTypeName) as (Harity & Hop & _ & Hshape).
  split; [|split].
  - apply (Harity [TensorTypeRef float32_node] 0 (AttrsUnaryElementwise square_attrs)
             example_reporter).
    simpl; lia.
  - apply (Hop float32_node (IncompleteType 0) (IncompleteType 1) 2 square_attrs
             example_reporter).
    simpl; discriminate.
  - apply (Hshape (fun _ _ _ _ => [])).
    simpl; discriminate.
Defined.

Lemma rel_ignores_clip_bounds_witness :
  activation clip_attrs = "CLIP"
  /\ clip_max (with_clip clip_attrs 10 (-10)) < clip_min (with_clip clip_attrs 10 (-10))
  /\ (EthosuUnaryElementwiseRel ShapeTransform DataTypeName [TensorType nhwc_1_4_4_16 (DataType.Int 8); IncompleteType 0; IncompleteType 1] 2
            (AttrsUnaryElementwise (with_clip clip_attrs 10 (-10))) example_reporter).1
     = Returned true.
Proof.
  split; [reflexivity|]. split; [simpl; lia|].
  apply (rel_ignores_clip_bounds ShapeTransform DataTypeName clip_attrs 10 (-10)).
  - left; reflexivity.
  - reflexivity.
Defined.

Lemma rel_reads_only_witness :
  EthosuUnaryElementwiseRel ShapeTransform DataTypeName (<[1%nat := TupleType []]>
          [TensorType nhwc_1_4_4_16 (DataType.UInt 8); IncompleteType 0; IncompleteType 1])
       7 (AttrsUnaryElementwise lut_attrs) example_reporter
  = EthosuUnaryElementwiseRel ShapeTransform DataTypeName [TensorType nhwc_1_4_4_16 (DataType.UInt 8); IncompleteType 0; IncompleteType 1]
         2 (AttrsUnaryElementwise example_attrs) example_reporter.
Proof.
  apply (rel_reads_only ShapeTransform DataTypeName
           [TensorType nhwc_1_4_4_16 (DataType.UInt 8); IncompleteType 0; IncompleteType 1]
           (TupleType []) 2 7 example_attrs lut_attrs example_reporter);
    reflexivity.
Defined.

(** ** Further properties: outcomes, invariants and the constructor *)

Section Outcomes.

Variable InferShape : list IndexExpr -> string -> string -> IndexExpr -> list IndexExpr.
Variable DType2String : DataType.t -> string.

(** Every call ends in one of six ways, in the order of the checks. *)
Lemma rel_cases types n attrs r :
  (length types <> 3%nat
   /\ EthosuUnaryElementwiseRel InferShape DType2String types n attrs r
      = (Aborted (ICHECK_EQ_failed (Z.of_nat (length types)) 3), r))
  \/ (exists t0 t1 t2,
        types = [t0; t1; t2] /\ as_TensorTypeNode t0 = None
        /\ EthosuUnaryElementwiseRel InferShape DType2String types n attrs r
           = (Returned false, r))
  \/ (exists ifm t1 t2,
        types = [TensorTypeRef ifm; t1; t2]
        /\ as_EthosuUnaryElementwiseAttrs attrs = None
        /\ EthosuUnaryElementwiseRel InferShape DType2String types n attrs r
           = (Aborted (CHECK_failed "EthosuUnaryElementwiseAttrs cannot be nullptr."), r))
  \/ (exists ifm t1 t2 param,
        types = [TensorTypeRef ifm; t1; t2] /\ attrs = AttrsUnaryElementwise param
        /\ operator_type param <> "ABS"
        /\ EthosuUnaryElementwiseRel InferShape DType2String types n attrs r
           = (Returned false,
              with_diagnostic r
                (mkDiagnostic kError (reporter_span r)
                   ("Invalid operator: expected ethosu_unary_elementwise 'ABS' for operator_type but was"
                    ++ operator_type param))))
  \/ (exists ifm t1 t2 param,
        types = [TensorTypeRef ifm; t1; t2] /\ attrs = AttrsUnaryElementwise param
        /\ operator_type param = "ABS"
        /\ dtype ifm <> DataType.UInt 8 /\ dtype ifm <> DataType.Int 8
        /\ EthosuUnaryElementwiseRel InferShape DType2String types n attrs r
           = (Returned false,
              with_diagnostic r
                (mkDiagnostic kError (reporter_span r)
                   ("Invalid operator: expected ethosu_unary_elementwise input data type of type(uint8) or type(int8) but was "
                    ++ DType2String (dtype ifm)))))
  \/ (exists ifm t1 t2 param,
        types = [TensorTypeRef ifm; t1; t2] /\ attrs = AttrsUnaryElementwise param
        /\ operator_type param = "ABS"
        /\ (dtype ifm = DataType.UInt 8 \/ dtype ifm = DataType.Int 8)
        /\ EthosuUnaryElementwiseRel InferShape DType2String types n attrs r
           = (Returned true,
              with_assignment r t2
                (TensorType (InferShape (shape ifm) (ifm_layout param) (ofm_layout param)
                                        (ofm_channels param))
                            (dtype ifm)))).
Proof.
  destruct (decide (length types = 3%nat)) as [Hlen|Hlen].
  2:{ left. split; [done|]. by apply rel_arity_mismatch. }
  right. destruct (length_three_inv _ Hlen) as (t0 & t1 & t2 & ->).
  rewrite rel_three.
  destruct t0 as [ifm|id|fields]; simpl.
  2,3: left; eexists _, _, _; by repeat split.
  right. destruct attrs as [|param|key]; simpl.
  1,3: left; eexists _, _, _; by repeat split.
  right. case_bool_decide as Hop.
  { left. exists ifm, t1, t2, param. by repeat split. }
  right. assert (operator_type param = "ABS") as Hop'
    by (destruct (decide (operator_type param = "ABS")); [done | by destruct Hop]).
  destruct (decide (dtype ifm = DataType.UInt 8)) as [Hu|Hu].
  { right. exists ifm, t1, t2, param. rewrite bool_decide_eq_false_2 by (intros H'; by apply H').
    simpl. repeat split; auto. }
  destruct (decide (dtype ifm = DataType.Int 8)) as [Hi|Hi].
  { right. exists ifm, t1, t2, param.
    rewrite (bool_decide_eq_false_2 (dtype ifm <> DataType.Int 8)) by (intros H'; by apply H').
    rewrite andb_false_r. repeat split; auto. }
  left. exists ifm, t1, t2, param. rewrite !bool_decide_eq_true_2 by done.
  by repeat split.
Qed.

End Outcomes.

Section Extras.

Variable InferShape : list IndexExpr -> string -> string -> IndexExpr -> list IndexExpr.
Variable DType2String : DataType.t -> string.

(** X1.  With three type slots the call is cut short by an internal error
    exactly when the first slot is a tensor type and [attrs] is not a node of
    this operator (a null reference, the attributes of another operator).
    The error is then the failed [CHECK] with its message, and the reporter
    is untouched.  An input that is not a tensor type defers first, whatever
    [attrs] is. *)
Theorem rel_abort_iff_foreign_attrs t0 t1 t2 n attrs r :
  ((exists e, (EthosuUnaryElementwiseRel InferShape DType2String [t0; t1; t2] n attrs r).1
              = Aborted e)
   <-> as_TensorTypeNode t0 <> None /\ as_EthosuUnaryElementwiseAttrs attrs = None)
  /\ (as_TensorTypeNode t0 <> None -> as_EthosuUnaryElementwiseAttrs attrs = None ->
      EthosuUnaryElementwiseRel InferShape DType2String [t0; t1; t2] n attrs r
      = (Aborted (CHECK_failed "EthosuUnaryElementwiseAttrs cannot be nullptr."), r)).
Proof.
  rewrite rel_three. split; [split|].
  - intros [e He]. destruct (as_TensorTypeNode t0); [|discriminate].
    destruct (as_EthosuUnaryElementwiseAttrs attrs); [|by split].
    case_bool_decide; [discriminate|]. by destruct (_ && _).
  - intros [Ht ->]. destruct (as_TensorTypeNode t0); [|done]. by eexists.
  - intros Ht ->. by destruct (as_TensorTypeNode t0).
Qed.

(** X2.  The relation returns [true] exactly for three type slots with a
    tensor type of element type uint8 or int8 in the first, and attributes
    of this operator with [operator_type] "ABS". *)
Theorem rel_true_iff types n attrs r :
  (EthosuUnaryElementwiseRel InferShape DType2String types n attrs r).1 = Returned true
  <-> exists ifm lut out param,
        types = [TensorTypeRef ifm; lut; out]
        /\ attrs = AttrsUnaryElementwise param
        /\ operator_type param = "ABS"
        /\ (dtype ifm = DataType.UInt 8 \/ dtype ifm = DataType.Int 8).
Proof.
  split.
  - intros Hrun.
    destruct (rel_cases InferShape DType2String types n attrs r)
      as [(_ & H) | [(? & ? & ? & _ & _ & H) | [(? & ? & ? & _ & _ & H)
         | [(? & ? & ? & ? & _ & _ & _ & H) | [(? & ? & ? & ? & _ & _ & _ & _ & _ & H)
         | (ifm & lut & out & param & -> & -> & Hop & Hdt & _)]]]]];
      try (rewrite H in Hrun; discriminate).
    by exists ifm, lut, out, param.
  - intros (ifm & lut & out & param & -> & -> & Hop & Hdt).
    rewrite rel_three. simpl.
    rewrite bool_decide_eq_false_2 by (intros Hne; apply Hne, Hop).
    destruct Hdt as [-> | ->]; reflexivity.
Qed.

(** X3.  The return value [false] stands for two things, which the
    diagnostics tell apart: a call that returns [false] has added no
    diagnostic exactly when the first type slot is not a tensor type (the
    input is unresolved); otherwise it has added exactly one. *)
Theorem rel_false_defers_or_reports types n attrs r r' :
  EthosuUnaryElementwiseRel InferShape DType2String types n attrs r = (Returned false, r') ->
  (diagnostics r' = diagnostics r
   <-> exists t0, types !! 0%nat = Some t0 /\ as_TensorTypeNode t0 = None)
  /\ (diagnostics r' <> diagnostics r -> exists d, r' = with_diagnostic r d).
Proof.
  intros Hrun.
  assert (Hgrow : forall d, diagnostics (with_diagnostic r d) <> diagnostics r).
  { intros d Heq. simpl in Heq. apply (f_equal length) in Heq.
    rewrite length_app in Heq. simpl in Heq. lia. }
  destruct (rel_cases InferShape DType2String types n attrs r)
    as [(_ & H) | [(t0 & ? & ? & -> & Ht & H) | [(? & ? & ? & _ & _ & H)
       | [(ifm & ? & ? & ? & -> & _ & _ & H) | [(ifm & ? & ? & ? & -> & _ & _ & _ & _ & H)
       | (? & ? & ? & ? & _ & _ & _ & _ & H)]]]]];
    rewrite H in Hrun; try discriminate; injection Hrun as <-.
  - split; [split; [intros _; by exists t0 | done] | done].
  - split; [split|]; [intros Heq; by destruct (Hgrow _ Heq) | | by eexists].
    intros (t0 & Hl & Ht). simpl in Hl. injection Hl as <-. discriminate.
  - split; [split|]; [intros Heq; by destruct (Hgrow _ Heq) | | by eexists].
    intros (t0 & Hl & Ht). simpl in Hl. injection Hl as <-. discriminate.
Qed.

(** X4.  A call adds at most one entry to the reporter, a diagnostic or an
    assignment and never both, and keeps every entry that was there.  An
    aborted call adds nothing, and an assignment is added exactly by the
    calls that return [true]. *)
Theorem rel_adds_at_most_one types n attrs r o r' :
  EthosuUnaryElementwiseRel InferShape DType2String types n attrs r = (o, r') ->
  exists ds asg,
    r' = extend r ds asg
    /\ (length ds + length asg <= 1)%nat
    /\ (forall e, o = Aborted e -> ds = [] /\ asg = [])
    /\ (o = Returned true <-> asg <> []).
Proof.
  intros Hrun.
  destruct (rel_cases InferShape DType2String types n attrs r)
    as [(_ & H) | [(? & ? & ? & _ & _ & H) | [(? & ? & ? & _ & _ & H)
       | [(? & ? & ? & ? & _ & _ & _ & H) | [(? & ? & ? & ? & _ & _ & _ & _ & _ & H)
       | (? & ? & ? & ? & _ & _ & _ & _ & H)]]]]];
    rewrite H in Hrun; injection Hrun as <- <-.
  - exists [], []. rewrite extend_nil. repeat split; try done; simpl; lia.
  - exists [], []. rewrite extend_nil. repeat split; try done; simpl; lia.
  - exists [], []. rewrite extend_nil. repeat split; try done; simpl; lia.
  - eexists [_], []. repeat split; try done; simpl; lia.
  - eexists [_], []. repeat split; try done; simpl; lia.
  - eexists [], [_]. repeat split; try done; simpl; lia.
Qed.

(** X5.  The relation checks neither the shape nor the layouts nor the
    channel count: for a tensor type of a given element type and attributes
    with a given [operator_type], the value returned and the diagnostics
    are the same for every shape (of any rank, the empty one too), every
    pair of layout strings, every [ofm_channels] and every shape function. *)
Theorem rel_verdict_ignores_shape
    (g : list IndexExpr -> string -> string -> IndexExpr -> list IndexExpr)
    shape shape' dt lut lut' out out' n n' a a' r :
  operator_type a' = operator_type a ->
  (EthosuUnaryElementwiseRel g DType2String
     [TensorType shape' dt; lut'; out'] n' (AttrsUnaryElementwise a') r).1
  = (EthosuUnaryElementwiseRel InferShape DType2String
       [TensorType shape dt; lut; out] n (AttrsUnaryElementwise a) r).1
  /\ diagnostics
       (EthosuUnaryElementwiseRel g DType2String
          [TensorType shape' dt; lut'; out'] n' (AttrsUnaryElementwise a') r).2
     = diagnostics
         (EthosuUnaryElementwiseRel InferShape DType2String
            [TensorType shape dt; lut; out] n (AttrsUnaryElementwise a) r).2.
Proof.
  intros Hop. rewrite !rel_three. simpl. rewrite Hop.
  case_bool_decide; [done|].
  by destruct (_ && _).
Qed.

(** X6.  Whatever a call hands to the solver is a tensor type of element
    type int8 or uint8, the element type of the first slot, and it is handed
    over for the slot [types[2]]: an assignment found in the reporter after a
    call was there before or is of that kind. *)
Theorem rel_assigns_only_int8 types n attrs r o r' dst src :
  EthosuUnaryElementwiseRel InferShape DType2String types n attrs r = (o, r') ->
  In (dst, src) (assignments r') ->
  In (dst, src) (assignments r)
  \/ (types !! 2%nat = Some dst
      /\ exists ifm sh,
           types !! 0%nat = Some (TensorTypeRef ifm)
           /\ src = TensorType sh (dtype ifm)
           /\ (dtype ifm = DataType.Int 8 \/ dtype ifm = DataType.UInt 8)).
Proof.
  intros Hrun Hin.
  destruct (rel_cases InferShape DType2String types n attrs r)
    as [(_ & H) | [(? & ? & ? & _ & _ & H) | [(? & ? & ? & _ & _ & H)
       | [(? & ? & ? & ? & _ & _ & _ & H) | [(? & ? & ? & ? & _ & _ & _ & _ & _ & H)
       | (ifm & ? & out & ? & -> & _ & _ & Hdt & H)]]]]];
    rewrite H in Hrun; injection Hrun as <- <-;
    try (left; simpl in Hin; by rewrite ?app_nil_r in Hin).
  simpl in Hin. apply in_app_or in Hin as [Hin | [Heq | []]]; [by left|].
  injection Heq as <- <-. right. split; [done|].
  eexists ifm, _. split; [done|]. split; [done|]. tauto.
Qed.

(** X7.  Every diagnostic a call adds is an error-level diagnostic at the
    span of the reporter, its message starts with "Invalid operator: expected
    ethosu_unary_elementwise ", and the call that added it returns [false]. *)
Theorem rel_diagnostics_are_errors types n attrs r o r' d :
  EthosuUnaryElementwiseRel InferShape DType2String types n attrs r = (o, r') ->
  In d (diagnostics r') ->
  In d (diagnostics r)
  \/ (diag_level d = kError
      /\ diag_span d = reporter_span r
      /\ String.prefix "Invalid operator: expected ethosu_unary_elementwise "
                       (diag_message d) = true
      /\ o = Returned false).
Proof.
  intros Hrun Hin.
  destruct (rel_cases InferShape DType2String types n attrs r)
    as [(_ & H) | [(? & ? & ? & _ & _ & H) | [(? & ? & ? & _ & _ & H)
       | [(? & ? & ? & ? & _ & _ & _ & H) | [(? & ? & ? & ? & _ & _ & _ & _ & _ & H)
       | (? & ? & ? & ? & _ & _ & _ & _ & H)]]]]];
    rewrite H in Hrun; injection Hrun as <- <-;
    try (left; simpl in Hin; by rewrite ?app_nil_r in Hin).
  - simpl in Hin. apply in_app_or in Hin as [Hin | [<- | []]]; [by left|].
    right. by repeat split.
  - simpl in Hin. apply in_app_or in Hin as [Hin | [<- | []]]; [by left|].
    right. by repeat split.
Qed.

(** X8.  The call built by [MakeEthosuUnaryElementwise] carries its
    arguments to the relation: with [operator_type] "ABS" and an int8 or
    uint8 tensor type for [ifm], the relation run on the attributes of that
    call returns [true] and assigns the shape computed from the input shape
    and from the [ifm_layout], [ofm_layout] and [ofm_channels] that were
    passed to the constructor, in this order. *)
Theorem make_then_rel_assigns ifm lut op_type ifm_s ifm_zp ofm_s ofm_zp channels act
    cmin cmax rounding ifm_lay ofm_lay sh dt lut_ty out n r :
  op_type = "ABS" ->
  dt = DataType.Int 8 \/ dt = DataType.UInt 8 ->
  exists attrs,
    MakeEthosuUnaryElementwise ifm lut op_type ifm_s ifm_zp ofm_s ofm_zp channels act
                               cmin cmax rounding ifm_lay ofm_lay
    = Call "contrib.ethosu.unary_elementwise" [ifm; lut] attrs []
    /\ EthosuUnaryElementwiseRel InferShape DType2String
         [TensorType sh dt; lut_ty; out] n attrs r
       = (Returned true,
          with_assignment r out (TensorType (InferShape sh ifm_lay ofm_lay channels) dt)).
Proof.
  intros -> Hdt. eexists. split; [reflexivity|].
  rewrite rel_three. simpl.
  destruct Hdt as [-> | ->]; reflexivity.
Qed.

(** X9.  A call built by [MakeEthosuUnaryElementwise] is a call of the
    registered operator with as many arguments as the registration declares
    inputs and documents arguments; with one type slot for each of them and
    one for the result, the relation run on its attributes is never cut short
    by an internal error, whatever the arguments of the constructor are. *)
Theorem make_call_passes_internal_checks ifm lut op_type ifm_s ifm_zp ofm_s ofm_zp
    channels act cmin cmax rounding ifm_lay ofm_lay :
  exists args attrs,
    MakeEthosuUnaryElementwise ifm lut op_type ifm_s ifm_zp ofm_s ofm_zp channels act
                               cmin cmax rounding ifm_lay ofm_lay
    = Call (reg_name ethosu_unary_elementwise_op) args attrs []
    /\ Z.of_nat (length args) = reg_num_inputs ethosu_unary_elementwise_op
    /\ length args = length (reg_arguments ethosu_unary_elementwise_op)
    /\ forall types n r,
         length types = S (length args) ->
         exists b, (EthosuUnaryElementwiseRel InferShape DType2String types n attrs r).1
                   = Returned b.
Proof.
  eexists _, _. split; [reflexivity|]. split; [reflexivity|]. split; [reflexivity|].
  intros types n r Hlen. simpl in Hlen.
  destruct (length_three_inv _ Hlen) as (t0 & t1 & t2 & ->).
  rewrite rel_three.
  destruct (as_TensorTypeNode t0); [|by eexists]. simpl.
  case_bool_decide; [by eexists|].
  destruct (_ && _); by eexists.
Qed.

(** X10.  [MakeEthosuUnaryElementwise] loses none of its arguments: two
    calls it builds are equal only if the two operands and the twelve
    attribute values are equal, one by one. *)
Theorem make_injective ifm lut op_type ifm_s ifm_zp ofm_s ofm_zp channels act
    cmin cmax rounding ifm_lay ofm_lay
    ifm' lut' op_type' ifm_s' ifm_zp' ofm_s' ofm_zp' channels' act'
    cmin' cmax' rounding' ifm_lay' ofm_lay' :
  MakeEthosuUnaryElementwise ifm lut op_type ifm_s ifm_zp ofm_s ofm_zp channels act
                             cmin cmax rounding ifm_lay ofm_lay
  = MakeEthosuUnaryElementwise ifm' lut' op_type' ifm_s' ifm_zp' ofm_s' ofm_zp' channels'
                               act' cmin' cmax' rounding' ifm_lay' ofm_lay' ->
  ifm = ifm' /\ lut = lut' /\ op_type = op_type'
  /\ ifm_s = ifm_s' /\ ifm_zp = ifm_zp' /\ ofm_s = ofm_s' /\ ofm_zp = ofm_zp'
  /\ channels = channels' /\ act = act' /\ cmin = cmin' /\ cmax = cmax'
  /\ rounding = rounding' /\ ifm_lay = ifm_lay' /\ ofm_lay = ofm_lay'.
Proof.
  unfold MakeEthosuUnaryElementwise. intros Heq.
  injection Heq as -> -> -> -> -> -> -> -> -> -> -> -> -> ->.
  by repeat split.
Qed.

End Extras.

Lemma rel_abort_iff_foreign_attrs_witness :
  as_TensorTypeNode (TensorTypeRef float32_node) <> None
  /\ as_EthosuUnaryElementwiseAttrs (AttrsOther "relay.attrs.EthosuPoolingAttrs") = None
  /\ EthosuUnaryElementwiseRel ShapeTransform DataTypeName
       [TensorTypeRef float32_node; IncompleteType 0; IncompleteType 1] 2
       (AttrsOther "relay.attrs.EthosuPoolingAttrs") example_reporter
     = (Aborted (CHECK_failed "EthosuUnaryElementwiseAttrs cannot be nullptr."),
        example_reporter).
Proof.
  assert (Ht : as_TensorTypeNode (TensorTypeRef float32_node) <> None)
    by (simpl; discriminate).
  split; [exact Ht|]. split; [reflexivity|].
  apply (rel_abort_iff_foreign_attrs ShapeTransform DataTypeName
           (TensorTypeRef float32_node) (IncompleteType 0) (IncompleteType 1) 2
           (AttrsOther "relay.attrs.EthosuPoolingAttrs") example_reporter).
  - exact Ht.
  - reflexivity.
Defined.

Lemma rel_true_iff_witness :
  (EthosuUnaryElementwiseRel ShapeTransform DataTypeName
     (call_types uint8_call) 2 (call_attrs uint8_call) example_reporter).1 = Returned true.
Proof.
  apply (rel_true_iff ShapeTransform DataTypeName
           (call_types uint8_call) 2 (call_attrs uint8_call) example_reporter).
  exists (mkTensorTypeNode nhwc_1_4_4_16 (DataType.UInt 8)),
         (IncompleteType 0), (IncompleteType 1), example_attrs.
  split; [reflexivity|]. split; [reflexivity|]. split; [reflexivity|].
  left; reflexivity.
Defined.

Lemma rel_false_defers_or_reports_witness :
  EthosuUnaryElementwiseRel ShapeTransform DataTypeName
    [IncompleteType 7; IncompleteType 0; IncompleteType 1] 2
    (AttrsUnaryElementwise square_attrs) example_reporter
  = (Returned false, example_reporter)
  /\ (diagnostics example_reporter = diagnostics example_reporter
      <-> exists t0, [IncompleteType 7; IncompleteType 0; IncompleteType 1] !! 0%nat = Some t0
                     /\ as_TensorTypeNode t0 = None).
Proof.
  split; [reflexivity|].
  apply (rel_false_defers_or_reports ShapeTransform DataTypeName
           [IncompleteType 7; IncompleteType 0; IncompleteType 1] 2
           (AttrsUnaryElementwise square_attrs) example_reporter example_reporter).
  reflexivity.
Defined.

Lemma rel_adds_at_most_one_witness :
  exists ds asg,
    with_diagnostic example_reporter
      (mkDiagnostic kError example_span
         "Invalid operator: expected ethosu_unary_elementwise 'ABS' for operator_type but wasSQUARE")
    = extend example_reporter ds asg
    /\ (length ds + length asg <= 1)%nat
    /\ (forall e, @Returned bool false = Aborted e -> ds = [] /\ asg = [])
    /\ (@Returned bool false = Returned true <-> asg <> []).
Proof.
  apply (rel_adds_at_most_one ShapeTransform DataTypeName
           [TensorTypeRef float32_node; IncompleteType 0; IncompleteType 1] 2
           (AttrsUnaryElementwise square_attrs) example_reporter).
  reflexivity.
Defined.

Lemma rel_verdict_ignores_shape_witness :
  operator_type
    (mkAttrs "ABS" 0.5%float 0 0.25%float 0 Any "NONE" 0 0 "TFL" "NCHW" "")
  = operator_type example_attrs
  /\ (EthosuUnaryElementwiseRel (fun _ _ _ _ => []) DataTypeName
        [TensorType [] (DataType.UInt 8); TupleType []; IncompleteType 5] 0
        (AttrsUnaryElementwise
           (mkAttrs "ABS" 0.5%float 0 0.25%float 0 Any "NONE" 0 0 "TFL" "NCHW" ""))
        example_reporter).1
     = (EthosuUnaryElementwiseRel ShapeTransform DataTypeName
          [TensorType nhwc_1_4_4_16 (DataType.UInt 8); IncompleteType 0; IncompleteType 1] 2
          (AttrsUnaryElementwise example_attrs) example_reporter).1.
Proof.
  split; [reflexivity|].
  apply (rel_verdict_ignores_shape ShapeTransform DataTypeName (fun _ _ _ _ => [])
           nhwc_1_4_4_16 [] (DataType.UInt 8) (IncompleteType 0) (TupleType [])
           (IncompleteType 1) (IncompleteType 5) 2 0 example_attrs
           (mkAttrs "ABS" 0.5%float 0 0.25%float 0 Any "NONE" 0 0 "TFL" "NCHW" "")
           example_reporter).
  reflexivity.
Defined.

Lemma rel_assigns_only_int8_witness :
  In (IncompleteType 1, TensorType nhwc_1_4_4_16 (DataType.UInt 8))
     (assignments example_reporter)
  \/ (call_types uint8_call !! 2%nat = Some (IncompleteType 1)
      /\ exists ifm sh,
           call_types uint8_call !! 0%nat = Some (TensorTypeRef ifm)
           /\ TensorType nhwc_1_4_4_16 (DataType.UInt 8) = TensorType sh (dtype ifm)
           /\ (dtype ifm = DataType.Int 8 \/ dtype ifm = DataType.UInt 8)).
Proof.
  apply (rel_assigns_only_int8 ShapeTransform DataTypeName
           (call_types uint8_call) 2 (call_attrs uint8_call) example_reporter
           (Returned true)
           (with_assignment example_reporter (IncompleteType 1)
              (TensorType nhwc_1_4_4_16 (DataType.UInt 8)))).
  - reflexivity.
  - left; reflexivity.
Defined.

Lemma rel_diagnostics_are_errors_witness :
  let d := mkDiagnostic kError example_span
             "Invalid operator: expected ethosu_unary_elementwise input data type of type(uint8) or type(int8) but was float32" in
  In d (diagnostics example_reporter)
  \/ (diag_level d = kError
      /\ diag_span d = reporter_span example_reporter
      /\ String.prefix "Invalid operator: expected ethosu_unary_elementwise "
                       (diag_message d) = true
      /\ @Returned bool false = Returned false).
Proof.
  intros d.
  apply (rel_diagnostics_are_errors ShapeTransform DataTypeName
           [TensorTypeRef float32_node; IncompleteType 0; IncompleteType 1] 2
           (AttrsUnaryElementwise example_attrs) example_reporter
           (Returned false) (with_diagnostic example_reporter d) d).
  - reflexivity.
  - left; reflexivity.
Defined.

Lemma make_then_rel_assigns_witness :
  exists attrs,
    MakeEthosuUnaryElementwise (RelayVar "ifm") (Constant 0) "ABS" 0.5%float 0 0.25%float 0
                               (IntImm 16) "NONE" 0 0 "TFL" "NHCWB16" "NHWC"
    = Call "contrib.ethosu.unary_elementwise" [RelayVar "ifm"; Constant 0] attrs []
    /\ EthosuUnaryElementwiseRel ShapeTransform DataTypeName
         [TensorType nhcwb16_1_4_1_4_16 (DataType.Int 8); IncompleteType 0; IncompleteType 1]
         2 attrs example_reporter
       = (Returned true,
          with_assignment example_reporter (IncompleteType 1)
            (TensorType nhwc_1_4_4_16 (DataType.Int 8))).
Proof.
  apply (make_then_rel_assigns ShapeTransform DataTypeName
           (RelayVar "ifm") (Constant 0) "ABS" 0.5%float 0 0.25%float 0
           (IntImm 16) "NONE" 0 0 "TFL" "NHCWB16" "NHWC"
           nhcwb16_1_4_1_4_16 (DataType.Int 8) (IncompleteType 0) (IncompleteType 1)
           2 example_reporter).
  - reflexivity.
  - left; reflexivity.
Defined.

Lemma make_call_passes_internal_checks_witness :
  exists attrs,
    MakeEthosuUnaryElementwise (RelayVar "ifm") (Constant 0) "SQUARE" 0.5%float 0 0.25%float 0
                               (IntImm 16) "NONE" 0 0 "TFL" "NHWC" "NHWC"
    = Call "contrib.ethosu.unary_elementwise" [RelayVar "ifm"; Constant 0] attrs []
    /\ exists b,
         (EthosuUnaryElementwiseRel ShapeTransform DataTypeName
            [TensorTypeRef float32_node; IncompleteType 0; IncompleteType 1] 2 attrs
            example_reporter).1 = Returned b.
Proof.
  destruct (make_call_passes_internal_checks ShapeTransform DataTypeName
              (RelayVar "ifm") (Constant 0) "SQUARE" 0.5%float 0 0.25%float 0
              (IntImm 16) "NONE" 0 0 "TFL" "NHWC" "NHWC")
    as (args & attrs & Heq & _ & _ & Hrun).
  injection Heq as <- <-.
  eexists. split; [reflexivity|].
  apply (Hrun [TensorTypeRef float32_node; IncompleteType 0; IncompleteType 1] 2
           example_reporter).
  reflexivity.
Defined.

Lemma make_injective_witness :
  RelayVar "ifm" = RelayVar "ifm" /\ Constant 0 = Constant 0 /\ "ABS" = "ABS"
  /\ 0.5%float = 0.5%float /\ 0 = 0 /\ 0.25%float = 0.25%float /\ 0 = 0
  /\ IntImm 16 = IntImm 16 /\ "NONE" = "NONE" /\ 0 = 0 /\ 0 = 0
  /\ "TFL" = "TFL" /\ "NHWC" = "NHWC" /\ "NHWC" = "NHWC".
Proof.
  apply (make_injective (RelayVar "ifm") (Constant 0) "ABS" 0.5%float 0 0.25%float 0
           (IntImm 16) "NONE" 0 0 "TFL" "NHWC" "NHWC"
           (RelayVar "ifm") (Constant 0) "ABS" 0.5%float 0 0.25%float 0
           (IntImm 16) "NONE" 0 0 "TFL" "NHWC" "NHWC").
  reflexivity.
Defined.
